(** * Blue-green deployment script (deploy.sh): a shallow embedding

    The script drives three external collaborators: the Docker daemon
    (networks, compose projects, containers), the nginx router, and the
    public health endpoint probed with curl.  The embedding keeps the
    script's control flow and models each collaborator as part of an
    explicit world:
    - [docker network ls] prints a fixed list of lines;
    - successive [docker-compose ps] and [curl] calls consume queued
      replies (an exhausted queue answers with empty output / failure);
    - nginx has a configured upstream and a live (loaded) upstream;
      [nginx -s reload] makes the configured upstream live.
    Every command with an effect outside the script is recorded as an
    event; log lines (echo) are not modelled.

    The script runs under [set -euo pipefail].  A failing command inside
    [deploy_to_stack] does not stop the script, because that function is
    called as the condition of [if !]; in [switch_traffic] (called outside
    any condition) a failing [nginx -s reload] makes the script exit. *)

From Stdlib Require Import String List Bool Arith Lia.
Import ListNotations.
Open Scope string_scope.
Open Scope list_scope.

(** ** Configuration (deploy.sh, lines 10-15) *)

Definition COMPOSE_FILE : string := "docker-compose.prod.yml".
Definition PROJECT_NAME : string := "facial-recognition".
Definition BLUE_STACK : string := (PROJECT_NAME ++ "-blue")%string.
Definition GREEN_STACK : string := (PROJECT_NAME ++ "-green")%string.

(** ** [grep -q PATTERN]: does some input line contain the pattern?
    The patterns used by the script contain no regex metacharacters, so
    a plain substring test is what grep does with them. *)

Fixpoint contains (pat s : string) : bool :=
  if String.prefix pat s then true
  else match s with
       | EmptyString => false
       | String _ s' => contains pat s'
       end.

Definition grep_q (pat : string) (lines : list string) : bool :=
  existsb (contains pat) lines.

(** ** The external world *)

Record router := mkRouter {
  upstream : string;   (** the upstream written in nginx's configuration *)
  live : string        (** the upstream nginx currently routes to *)
}.

Record world := mkWorld {
  w_networks : list string;      (** output lines of [docker network ls] *)
  w_ps : list (list string);     (** successive outputs of [docker-compose ps] *)
  w_curl : list bool;            (** successive outcomes of [curl -f] *)
  w_router : router;
  w_project : string;            (** exported COMPOSE_PROJECT_NAME *)
  w_dump_ok : bool;              (** does [docker exec ... pg_dump] succeed *)
  w_reload_ok : bool             (** does [nginx -s reload] succeed *)
}.

Definition set_ps (w : world) (p : list (list string)) : world :=
  mkWorld (w_networks w) p (w_curl w) (w_router w) (w_project w)
          (w_dump_ok w) (w_reload_ok w).
Definition set_curl (w : world) (c : list bool) : world :=
  mkWorld (w_networks w) (w_ps w) c (w_router w) (w_project w)
          (w_dump_ok w) (w_reload_ok w).
Definition set_router (w : world) (r : router) : world :=
  mkWorld (w_networks w) (w_ps w) (w_curl w) r (w_project w)
          (w_dump_ok w) (w_reload_ok w).
Definition set_project (w : world) (p : string) : world :=
  mkWorld (w_networks w) (w_ps w) (w_curl w) (w_router w) p
          (w_dump_ok w) (w_reload_ok w).

(** Commands with an effect outside the script, in the order issued. *)
Inductive event :=
| EPull (project : string)                  (** docker-compose pull *)
| EUp (project : string)                    (** docker-compose up -d *)
| EPs (project : string)                    (** docker-compose ps *)
| ELogs (project : string)                  (** docker-compose logs *)
| ESleep (seconds : nat)                    (** sleep *)
| EMigrate (project : string)               (** exec -T app flask db upgrade *)
| ECurl (max_time : nat) (ok : bool)        (** curl -f --max-time *)
| EReload (project : string)                (** exec nginx nginx -s reload *)
| EDown (project : string) (volumes : bool) (** docker-compose down [--volumes] *)
| EPgDump (container : string).             (** docker exec CONTAINER pg_dump *)

(** ** The shell monad: world state, the trace of commands, and [exit] *)

Inductive res (A : Type) :=
| Ok (a : A)
| Exit (code : nat).
Arguments Ok {A} a.
Arguments Exit {A} code.

Definition M (A : Type) := world -> res A * world * list event.

Definition ret {A} (a : A) : M A := fun w => (Ok a, w, []).

Definition bind {A B} (m : M A) (k : A -> M B) : M B :=
  fun w =>
    match m w with
    | (Ok a, w1, t1) =>
        match k a w1 with (r, w2, t2) => (r, w2, (t1 ++ t2)%list) end
    | (Exit c, w1, t1) => (Exit c, w1, t1)
    end.

Notation "x <- m ;; k" := (bind m (fun x => k))
  (at level 61, m at next level, right associativity).
Notation "m ;; k" := (bind m (fun _ => k))
  (at level 61, right associativity).

(** [exit CODE] *)
Definition exit {A} (code : nat) : M A := fun w => (Exit code, w, []).

(** [cmd || true] *)
Definition or_true (m : M bool) : M bool := _ <- m ;; ret true.

(** ** Primitive commands *)

Definition network_ls : M (list string) := fun w => (Ok (w_networks w), w, []).

Definition export_project (p : string) : M unit :=
  fun w => (Ok tt, set_project w p, []).

Definition compose_pull : M unit := fun w => (Ok tt, w, [EPull (w_project w)]).
Definition compose_up : M unit := fun w => (Ok tt, w, [EUp (w_project w)]).
Definition compose_logs : M unit := fun w => (Ok tt, w, [ELogs (w_project w)]).

Definition compose_ps : M (list string) :=
  fun w =>
    match w_ps w with
    | [] => (Ok [], w, [EPs (w_project w)])
    | out :: rest => (Ok out, set_ps w rest, [EPs (w_project w)])
    end.

Definition sleep (s : nat) : M unit := fun w => (Ok tt, w, [ESleep s]).

Definition compose_migrate : M bool :=
  fun w => (Ok true, w, [EMigrate (w_project w)]).

Definition curl (max_time : nat) : M bool :=
  fun w =>
    match w_curl w with
    | [] => (Ok false, w, [ECurl max_time false])
    | b :: rest => (Ok b, set_curl w rest, [ECurl max_time b])
    end.

(** [docker-compose exec nginx nginx -s reload]: nginx re-reads its
    configuration; a failure exits the script (set -e). *)
Definition nginx_reload : M unit :=
  fun w =>
    if w_reload_ok w then
      (Ok tt, set_router w (mkRouter (upstream (w_router w)) (upstream (w_router w))),
       [EReload (w_project w)])
    else (Exit 1, w, [EReload (w_project w)]).

(** [docker-compose down]; the model lets it always succeed (a failure in
    [cleanup_old_stack] or [rollback] would exit the script under set -e,
    after the same commands). *)
Definition compose_down (volumes : bool) : M unit :=
  fun w => (Ok tt, w, [EDown (w_project w) volumes]).

Definition pg_dump (container : string) : M bool :=
  fun w => (Ok (w_dump_ok w), w, [EPgDump container]).

(** ** Script functions *)

(** get_active_stack (lines 70-79), as a function of [docker network ls]. *)
Definition get_active_stack (networks : list string) : string :=
  if grep_q BLUE_STACK networks then BLUE_STACK
  else if grep_q GREEN_STACK networks then GREEN_STACK
  else "".

(** get_inactive_stack (lines 82-89). *)
Definition get_inactive_stack (networks : list string) : string :=
  let active_stack := get_active_stack networks in
  if String.eqb active_stack BLUE_STACK then GREEN_STACK else BLUE_STACK.

Definition max_attempts : nat := 60.

(** The condition of one polling attempt (line 113):
    [docker-compose ps | grep -q "healthy"]. *)
Definition poll_passes (ps_output : list string) : bool := grep_q "healthy" ps_output.

(** The health-wait loop (lines 109-127); [true] when the loop is left
    (by [break]), [false] for [return 1].  The fuel bounds the number of
    iterations; the loop is entered with [max_attempts] of it. *)
Fixpoint health_loop (fuel attempt : nat) : M bool :=
  match fuel with
  | O => ret true
  | S fuel' =>
      if Nat.leb attempt max_attempts then
        out <- compose_ps ;;
        if poll_passes out then ret true
        else if Nat.eqb attempt max_attempts then compose_logs ;; ret false
        else sleep 10 ;; health_loop fuel' (S attempt)
      else ret true
  end.

(** deploy_to_stack (lines 92-141); [true] for exit status 0. *)
Definition deploy_to_stack (stack_name : string) : M bool :=
  export_project stack_name ;;
  compose_pull ;;
  compose_up ;;
  healthy <- health_loop max_attempts 1 ;;
  if negb healthy then ret false
  else
    or_true compose_migrate ;;
    curl 30.

(** switch_traffic (lines 144-153): [new_stack] only appears in log lines. *)
Definition switch_traffic (new_stack : string) : M unit :=
  nginx_reload.

(** cleanup_old_stack (lines 156-164). *)
Definition cleanup_old_stack (old_stack : string) : M unit :=
  export_project old_stack ;;
  compose_down true.

(** create_backup (lines 167-177). *)
Definition create_backup : M unit :=
  or_true (pg_dump (BLUE_STACK ++ "_postgres_1")%string) ;;
  ret tt.

(** rollback (lines 180-194). *)
Definition rollback (current_stack previous_stack : string) : M unit :=
  switch_traffic previous_stack ;;
  export_project current_stack ;;
  compose_down false.

(** deploy (lines 197-244). *)
Definition deploy : M unit :=
  nets <- network_ls ;;
  let active_stack := get_active_stack nets in
  nets' <- network_ls ;;
  let inactive_stack := get_inactive_stack nets' in
  (if negb (String.eqb active_stack "") then create_backup else ret tt) ;;
  deployed <- deploy_to_stack inactive_stack ;;
  if negb deployed then exit 1
  else
    switch_traffic inactive_stack ;;
    sleep 30 ;;
    verified <- curl 10 ;;
    if verified then
      (if negb (String.eqb active_stack "") then cleanup_old_stack active_stack
       else ret tt)
    else
      (if negb (String.eqb active_stack "") then rollback inactive_stack active_stack
       else ret tt) ;;
      exit 1.

(** The host the script checks before deploying or rolling back. *)
Record host := mkHost {
  has_docker : bool;             (** [command -v docker] succeeds *)
  has_docker_compose : bool;     (** [command -v docker-compose] succeeds *)
  has_compose_plugin : bool;     (** [docker compose version] succeeds *)
  existing_paths : list string   (** paths for which [-e] holds *)
}.

Definition required_files : list string :=
  ["docker-compose.prod.yml"; "Dockerfile.prod"; "secrets/"].

(** The [for file in ...] loop of check_prerequisites (lines 58-64). *)
Fixpoint check_files (h : host) (files : list string) : M unit :=
  match files with
  | [] => ret tt
  | file :: rest =>
      if negb (existsb (String.eqb file) (existing_paths h)) then exit 1
      else check_files h rest
  end.

(** check_prerequisites (lines 42-67). *)
Definition check_prerequisites (h : host) : M unit :=
  if negb (has_docker h) then exit 1
  else if negb (has_docker_compose h) && negb (has_compose_plugin h) then exit 1
  else check_files h required_files.

(** status (lines 247-260).  The last command,
    [docker network ls | grep "$PROJECT_NAME"], fails when no line
    matches; under [set -e] (status is not called in a condition) the
    script then exits with grep's status 1. *)
Definition status : M unit :=
  export_project BLUE_STACK ;;
  _ <- compose_ps ;;
  export_project GREEN_STACK ;;
  _ <- compose_ps ;;
  nets <- network_ls ;;
  if grep_q PROJECT_NAME nets then ret tt else exit 1.

(** rollback_cmd (lines 263-272). *)
Definition rollback_cmd : M unit :=
  nets <- network_ls ;;
  let active_stack := get_active_stack nets in
  if String.eqb active_stack "" then exit 1
  else
    nets' <- network_ls ;;
    let inactive_stack := get_inactive_stack nets' in
    rollback active_stack inactive_stack.

(** The [cleanup] branch of the main [case] (lines 288-293); [|| true]
    discards the status of each [down]. *)
Definition cleanup_all : M unit :=
  export_project BLUE_STACK ;;
  or_true (compose_down true ;; ret true) ;;
  export_project GREEN_STACK ;;
  or_true (compose_down true ;; ret true) ;;
  ret tt.

(** [${1:-deploy}]: the first argument, or [deploy] when it is unset or
    empty. *)
Definition command_of (args : list string) : string :=
  match args with
  | [] => "deploy"
  | a :: _ => if String.eqb a "" then "deploy" else a
  end.

(** The main [case] (lines 275-303); the usage branch prints and exits 1. *)
Definition main (h : host) (args : list string) : M unit :=
  let cmd := command_of args in
  if String.eqb cmd "deploy" then check_prerequisites h ;; deploy
  else if String.eqb cmd "status" then status
  else if String.eqb cmd "rollback" then check_prerequisites h ;; rollback_cmd
  else if String.eqb cmd "cleanup" then cleanup_all
  else exit 1.

(** Accessors for a run. *)
Definition outcome {A} (r : res A * world * list event) : res A := fst (fst r).
Definition final_world {A} (r : res A * world * list event) : world := snd (fst r).
Definition events {A} (r : res A * world * list event) : list event := snd r.

(** ** Proof support

    Commands issued before the cutover: everything except a reload of
    nginx, a [docker-compose down] and the verification probe
    ([curl --max-time 10]). *)
Definition is_prep (e : event) : bool :=
  match e with
  | EReload _ | EDown _ _ => false
  | ECurl t _ => negb (Nat.eqb t 10)
  | _ => true
  end.

(** The commands of the backup step of [deploy] for a given active stack. *)
Definition backup_events (active : string) : list event :=
  if negb (String.eqb active "") then [EPgDump (BLUE_STACK ++ "_postgres_1")%string] else [].

(** The part of [deploy] that follows [deploy_to_stack] (lines 213-243),
    as a function of the variables it reads. *)
Definition after_provision (active_stack inactive_stack : string) (deployed : bool) : M unit :=
  if negb deployed then exit 1
  else
    switch_traffic inactive_stack ;;
    sleep 30 ;;
    verified <- curl 10 ;;
    if verified then
      (if negb (String.eqb active_stack "") then cleanup_old_stack active_stack
       else ret tt)
    else
      (if negb (String.eqb active_stack "") then rollback inactive_stack active_stack
       else ret tt) ;;
      exit 1.

(** The commands of [n] failing polling attempts that end the loop. *)
Fixpoint fail_events (p : string) (n : nat) : list event :=
  match n with
  | O => []
  | S O => [EPs p; ELogs p]
  | S n' => EPs p :: ESleep 10 :: fail_events p n'
  end.

(** Number of [docker-compose ps] polls in a trace. *)
Definition poll_count (evs : list event) : nat :=
  length (filter (fun e => match e with EPs _ => true | _ => false end) evs).

(** Total time, in seconds, spent in [sleep] in a trace. *)
Fixpoint slept (evs : list event) : nat :=
  match evs with
  | [] => 0
  | ESleep s :: rest => s + slept rest
  | _ :: rest => slept rest
  end.

(** The condition under which [check_prerequisites] passes. *)
Definition prerequisites_met (h : host) : bool :=
  has_docker h && (has_docker_compose h || has_compose_plugin h) &&
  forallb (fun f => existsb (String.eqb f) (existing_paths h)) required_files.

(** Commands [deploy_to_stack] may issue. *)
Definition is_provision (e : event) : bool :=
  match e with
  | EPull _ | EUp _ | EPs _ | ESleep 10 | ELogs _ | EMigrate _ | ECurl 30 _ => true
  | _ => false
  end.

(** Commands of the health-wait loop. *)
Definition is_wait (e : event) : bool :=
  match e with
  | EPs _ | ESleep 10 | ELogs _ => true
  | _ => false
  end.

(** ** Concrete inputs

    Header lines of [docker network ls] and [docker-compose ps]. *)
Definition NET_HEADER : string := "NETWORK ID     NAME                                 DRIVER    SCOPE".

Definition PS_HEADER : string := "NAME                                  SERVICE   STATUS".

Definition nets_blue : list string :=
  [NET_HEADER; "3f2a9c1e7b44   facial-recognition-blue_default      bridge    local"].

Definition nets_green : list string :=
  [NET_HEADER; "8d6b0e5a2c19   facial-recognition-green_default     bridge    local"].

(** The HealthProbeResult counts of a [docker-compose ps] listing: a
    service row reports its health as [(healthy)], [(unhealthy)] or
    [(health: starting)]. *)
Definition healthy_services (rows : list string) : nat :=
  length (filter (contains "(healthy)") rows).

Definition total_services (rows : list string) : nat := length rows.

Definition rows_unhealthy : list string :=
  ["facial-recognition-green-app-1        app       Up 2 minutes (unhealthy)"].

Definition rows_partial : list string :=
  ["facial-recognition-green-app-1        app       Up 2 minutes (healthy)";
   "facial-recognition-green-postgres-1   postgres  Up 2 minutes (health: starting)"].

(** Blue is active, green is being deployed, and its only service is
    unhealthy. *)
Definition w_unhealthy : world :=
  mkWorld nets_blue [PS_HEADER :: rows_unhealthy] [true; true]
          (mkRouter BLUE_STACK BLUE_STACK) "" true true.

(** Only the green stack's network exists. *)
Definition w_green_active : world :=
  mkWorld nets_green
          [[PS_HEADER; "facial-recognition-blue-app-1         app       Up 1 minute (healthy)"]]
          [true; true] (mkRouter GREEN_STACK GREEN_STACK) "" true true.

(** Blue is active; green never reports healthy. *)
Definition w_timeout : world :=
  mkWorld nets_blue
          [[PS_HEADER; "facial-recognition-green-app-1        app       Up 5 seconds (health: starting)"]]
          [] (mkRouter BLUE_STACK BLUE_STACK) "" true true.

(** No stack network exists; the probes of the blue stack answer as given. *)
Definition w_bootstrap (verify : bool) : world :=
  mkWorld []
          [[PS_HEADER; "facial-recognition-blue-app-1         app       Up 1 minute (healthy)"]]
          [true; verify] (mkRouter BLUE_STACK BLUE_STACK) "" true true.

(** No stack network exists, but nginx is configured for and serving the
    green stack; blue passes the health probe and fails verification. *)
Definition w_bootstrap_green : world :=
  mkWorld []
          [[PS_HEADER; "facial-recognition-blue-app-1         app       Up 1 minute (healthy)"]]
          [true; false] (mkRouter GREEN_STACK GREEN_STACK) "" true true.

(** Hosts: one without docker, one with only the compose plugin. *)
Definition host_no_docker : host := mkHost false true true required_files.
Definition host_plugin_only : host := mkHost true false true required_files.

(** Blue is active; green reports healthy; the two probes and the reload
    of nginx answer as given. *)
Definition PS_GREEN_HEALTHY : string :=
  "facial-recognition-green-app-1        app       Up 1 minute (healthy)".

Definition w_deploy (smoke verify reload : bool) : world :=
  mkWorld nets_blue [[PS_HEADER; PS_GREEN_HEALTHY]] [smoke; verify]
          (mkRouter BLUE_STACK BLUE_STACK) "" true reload.

(** ** General lemmas *)
Ltac close := do 3 eexists; split; [reflexivity|]; simpl;
  rewrite ?forallb_app; simpl;
  repeat match goal with H : forallb _ _ = true |- _ => rewrite H; clear H end;
  repeat split; auto; try congruence; try (rewrite ?in_app_iff; simpl; tauto).

Lemma health_loop_prep fuel : forall attempt w,
  exists b w' evs, health_loop fuel attempt w = (Ok b, w', evs) /\
    forallb is_prep evs = true /\ w_router w' = w_router w /\
    w_reload_ok w' = w_reload_ok w /\ w_project w' = w_project w /\
    w_networks w' = w_networks w.
Proof.
  induction fuel as [|fuel IH]; intros attempt w; simpl.
  - close.
  - destruct (Nat.leb attempt max_attempts); [|close].
    unfold bind, compose_ps.
    destruct (w_ps w) as [|out rest].
    + simpl. destruct (Nat.eqb attempt max_attempts).
      * cbn. close.
      * cbn. destruct (IH (S attempt) w) as (b & w' & evs & -> & ? & ? & ? & ? & ?).
        close.
    + destruct (poll_passes out); [cbn; close|].
      destruct (Nat.eqb attempt max_attempts).
      * cbn. close.
      * cbn. destruct (IH (S attempt) (set_ps w rest)) as (b & w' & evs & -> & ? & ? & ? & ? & ?).
        close.
Qed.

Lemma deploy_to_stack_prep s w :
  exists b w' evs, deploy_to_stack s w = (Ok b, w', evs) /\
    forallb is_prep evs = true /\ In (EUp s) evs /\ w_router w' = w_router w /\
    w_reload_ok w' = w_reload_ok w /\ w_project w' = s /\
    w_networks w' = w_networks w.
Proof.
  unfold deploy_to_stack.
  cbv [bind export_project compose_pull compose_up].
  destruct (health_loop_prep max_attempts 1 (set_project w s)) as (b & w1 & evs & -> & Hp & Hr & Hk & Hj & Hn).
  destruct b; cbn.
  - unfold curl. destruct (w_curl w1); cbn; close.
  - close.
Qed.

Lemma bind_ok {A B} (m : M A) (k : A -> M B) w a w1 t1 :
  m w = (Ok a, w1, t1) ->
  bind m k w = (let '(r, w2, t2) := k a w1 in (r, w2, (t1 ++ t2)%list)).
Proof. intros H; unfold bind; rewrite H; reflexivity. Qed.

Lemma backup_step (a : string) w :
  (if negb (String.eqb a "") then create_backup else ret tt) w = (Ok tt, w, backup_events a).
Proof. unfold backup_events; destruct (negb (a =? "")); reflexivity. Qed.

Lemma deploy_run w :
  let a := get_active_stack (w_networks w) in
  let i := get_inactive_stack (w_networks w) in
  exists pre b w1,
    forallb is_prep pre = true /\ In (EUp i) pre /\ w_router w1 = w_router w /\
    w_reload_ok w1 = w_reload_ok w /\ w_project w1 = i /\
    deploy w = (let '(r, w2, t2) := after_provision a i b w1 in
                (r, w2, (backup_events a ++ pre ++ t2)%list)).
Proof.
  intros a i.
  unfold deploy.
  erewrite bind_ok by reflexivity. cbv beta.
  erewrite bind_ok by reflexivity. cbv beta. fold a i.
  destruct (deploy_to_stack_prep i w) as (b & w1 & evs & Heq & Hp & Hu & Hr & Hk & Hj & Hn).
  exists evs, b, w1. repeat split; auto.
  erewrite bind_ok by apply backup_step.
  erewrite bind_ok by exact Heq. cbv beta.
  fold (after_provision a i b).
  destruct (after_provision a i b w1) as [[r w2] t2].
  rewrite app_nil_l. reflexivity.
Qed.

Lemma prep_no_down l p v : forallb is_prep l = true -> ~ In (EDown p v) l.
Proof.
  intros H Hin. rewrite forallb_forall in H. specialize (H _ Hin). discriminate.
Qed.

Lemma prep_no_reload l p : forallb is_prep l = true -> ~ In (EReload p) l.
Proof.
  intros H Hin. rewrite forallb_forall in H. specialize (H _ Hin). discriminate.
Qed.

Lemma prep_no_verify l v : forallb is_prep l = true -> ~ In (ECurl 10 v) l.
Proof.
  intros H Hin. rewrite forallb_forall in H. specialize (H _ Hin). discriminate.
Qed.

Lemma backup_events_prep a : forallb is_prep (backup_events a) = true.
Proof. unfold backup_events; destruct (negb (a =? "")); reflexivity. Qed.

Lemma health_loop_timeout n : forall attempt w,
  attempt + n = S max_attempts -> 1 <= n ->
  Forall (fun o => poll_passes o = false) (firstn n (w_ps w)) ->
  health_loop n attempt w =
    (Ok false, set_ps w (skipn n (w_ps w)), fail_events (w_project w) n).
Proof.
  induction n as [|n IH]; intros attempt w Hn H1 Hf; [lia|].
  simpl health_loop.
  replace (Nat.leb attempt max_attempts) with true
    by (symmetry; apply Nat.leb_le; unfold max_attempts in *; lia).
  unfold bind, compose_ps.
  destruct (w_ps w) as [|out rest] eqn:Hps.
  - change (poll_passes []) with false. cbv iota beta.
    destruct (Nat.eqb attempt max_attempts) eqn:Ha.
    + apply Nat.eqb_eq in Ha. assert (n = 0) by (unfold max_attempts in *; lia). subst n.
      destruct w; simpl in *; subst; reflexivity.
    + apply Nat.eqb_neq in Ha. destruct n as [|n']; [unfold max_attempts in *; lia|].
      unfold sleep. cbv iota beta.
      rewrite (IH (S attempt) w) by (rewrite ?Hps; simpl; auto; lia).
      rewrite Hps. destruct w; simpl in *; subst; reflexivity.
  - simpl in Hf. inversion Hf as [|? ? Hout Hrest]; subst.
    rewrite Hout. cbv iota beta.
    destruct (Nat.eqb attempt max_attempts) eqn:Ha.
    + apply Nat.eqb_eq in Ha. assert (n = 0) by (unfold max_attempts in *; lia). subst n.
      reflexivity.
    + apply Nat.eqb_neq in Ha. destruct n as [|n']; [unfold max_attempts in *; lia|].
      unfold sleep. cbv iota beta.
      rewrite (IH (S attempt) (set_ps w rest)) by (simpl; auto; lia).
      reflexivity.
Qed.

Lemma deploy_to_stack_timeout s w :
  Forall (fun o => poll_passes o = false) (firstn max_attempts (w_ps w)) ->
  deploy_to_stack s w =
    (Ok false, set_ps (set_project w s) (skipn max_attempts (w_ps w)),
     [EPull s; EUp s] ++ fail_events s max_attempts).
Proof.
  intros Hf. unfold deploy_to_stack.
  erewrite bind_ok by reflexivity. cbv beta.
  erewrite bind_ok by reflexivity. cbv beta.
  erewrite bind_ok by reflexivity. cbv beta.
  erewrite bind_ok by (apply health_loop_timeout; [reflexivity | unfold max_attempts; lia | exact Hf]).
  reflexivity.
Qed.

(** [switch_traffic] reloads nginx; its argument reaches no command. *)
Lemma switch_traffic_keeps_upstream s w :
  upstream (w_router (final_world (switch_traffic s w))) = upstream (w_router w) /\
  events (switch_traffic s w) = [EReload (w_project w)].
Proof.
  unfold switch_traffic, nginx_reload, final_world, events.
  destruct (w_reload_ok w); split; reflexivity.
Qed.

(** [rollback] reloads nginx first, then stops the failed stack, keeping
    its volumes. *)
Lemma rollback_order cur prev w :
  w_reload_ok w = true ->
  events (rollback cur prev w) = [EReload (w_project w); EDown cur false].
Proof.
  intros H. unfold rollback, switch_traffic, nginx_reload, bind, events.
  rewrite H. reflexivity.
Qed.

Ltac run_tail a b w1 :=
  unfold after_provision, rollback, cleanup_old_stack, switch_traffic, nginx_reload,
    sleep, curl, bind, export_project, compose_down, exit, ret;
  destruct b; simpl;
  [ let Hrl := fresh "Hrl" in
    destruct (w_reload_ok w1) eqn:Hrl; simpl;
    [ destruct (w_curl w1) as [|[|] ?]; simpl;
      destruct (negb (a =? "")); simpl; try (rewrite Hrl; simpl)
    | ]
  | ].

(** C1 (code bug): a polling attempt passes as soon as some line of
    [docker-compose ps] contains the text [healthy]: a listing whose only
    service is [(unhealthy)] passes with 0 of 1 services healthy, one with
    1 of 2 services healthy passes too, and [deploy] then cuts over. *)
Theorem health_poll_passes_without_all_healthy :
  poll_passes (PS_HEADER :: rows_unhealthy) = true /\
  healthy_services rows_unhealthy = 0 /\ total_services rows_unhealthy = 1 /\
  poll_passes (PS_HEADER :: rows_partial) = true /\
  healthy_services rows_partial = 1 /\ total_services rows_partial = 2 /\
  In (EReload GREEN_STACK) (events (deploy w_unhealthy)).
Proof. vm_compute. intuition. Qed.

(** C2 (code bug): [switch_traffic] never writes nginx's configuration;
    switching to green while nginx is configured for blue leaves routing
    on blue. *)
Theorem switch_traffic_leaves_routing_unchanged :
  let w := mkWorld nets_blue [] [] (mkRouter BLUE_STACK BLUE_STACK) "" true true in
  w_router (final_world (switch_traffic GREEN_STACK w)) = mkRouter BLUE_STACK BLUE_STACK /\
  live (w_router (final_world (switch_traffic GREEN_STACK w))) <> GREEN_STACK.
Proof. vm_compute. split; [reflexivity | discriminate]. Qed.

(** C3: if none of the 60 polls of [docker-compose ps] passes, [deploy]
    exits with status 1 after 60 polls and 59 sleeps of 10 seconds, issues
    no nginx reload (no cutover) and no [docker-compose down] (neither the
    active stack nor the started inactive stack is stopped or cleaned),
    and routing is unchanged. *)
Theorem health_timeout_aborts_without_cutover (w : world) :
  Forall (fun o => poll_passes o = false) (firstn max_attempts (w_ps w)) ->
  let i := get_inactive_stack (w_networks w) in
  outcome (deploy w) = Exit 1 /\
  w_router (final_world (deploy w)) = w_router w /\
  events (deploy w) =
    backup_events (get_active_stack (w_networks w)) ++ [EPull i; EUp i] ++ fail_events i max_attempts /\
  (forall p v, ~ In (EDown p v) (events (deploy w))) /\
  (forall p, ~ In (EReload p) (events (deploy w))) /\
  poll_count (events (deploy w)) = max_attempts /\
  slept (events (deploy w)) = 10 * (max_attempts - 1).
Proof.
  intros Hf i.
  assert (E : deploy w =
    (Exit 1, set_ps (set_project w i) (skipn max_attempts (w_ps w)),
     backup_events (get_active_stack (w_networks w)) ++ [EPull i; EUp i] ++ fail_events i max_attempts)).
  { unfold deploy.
    erewrite bind_ok by reflexivity. cbv beta.
    erewrite bind_ok by reflexivity. cbv beta.
    erewrite bind_ok by apply backup_step.
    erewrite bind_ok by (apply deploy_to_stack_timeout; exact Hf).
    simpl. rewrite ?app_nil_r. reflexivity. }
  assert (Hprep : forallb is_prep (events (deploy w)) = true).
  { rewrite E. unfold events; simpl. rewrite forallb_app, backup_events_prep. reflexivity. }
  rewrite E. unfold outcome, final_world, events; simpl.
  repeat split.
  - intros p v. rewrite E in Hprep. exact (prep_no_down _ _ _ Hprep).
  - intros p. rewrite E in Hprep. exact (prep_no_reload _ _ Hprep).
  - unfold backup_events; destruct (negb (get_active_stack (w_networks w) =? "")); reflexivity.
  - unfold backup_events; destruct (negb (get_active_stack (w_networks w) =? "")); reflexivity.
Qed.

(** Witness for C3. *)
Lemma health_timeout_aborts_without_cutover_witness :
  Forall (fun o => poll_passes o = false) (firstn max_attempts (w_ps w_timeout)) /\
  outcome (deploy w_timeout) = Exit 1.
Proof.
  assert (Hf : Forall (fun o => poll_passes o = false) (firstn max_attempts (w_ps w_timeout)))
    by (vm_compute; repeat constructor).
  split; [exact Hf | exact (proj1 (health_timeout_aborts_without_cutover w_timeout Hf))].
Defined.

(** C4: in every [deploy] run, a [docker-compose down --volumes] (the
    decommissioning of the previously active stack) is only issued after
    the post-cutover verification probe [curl --max-time 10] succeeded, and
    a run whose verification probe failed issues no such command. *)
Theorem cleanup_only_after_verification (w : world) :
  let evs := events (deploy w) in
  (In (ECurl 10 false) evs -> forall p, ~ In (EDown p true) evs) /\
  (forall p, In (EDown p true) evs ->
     exists pre post, evs = (pre ++ ECurl 10 true :: post)%list /\ In (EDown p true) post).
Proof.
  destruct (deploy_run w) as (pre & b & w1 & Hp & Hu & Hr & Hk & Hj & ->).
  set (a := get_active_stack (w_networks w)).
  set (i := get_inactive_stack (w_networks w)).
  pose proof (backup_events_prep a) as Hb.
  assert (Hnd : forall p v, ~ In (EDown p v) (backup_events a ++ pre)%list).
  { intros p v Hin. apply in_app_or in Hin as [Hin|Hin];
      [exact (prep_no_down _ _ _ Hb Hin) | exact (prep_no_down _ _ _ Hp Hin)]. }
  assert (Hnv : forall v, ~ In (ECurl 10 v) (backup_events a ++ pre)%list).
  { intros v Hin. apply in_app_or in Hin as [Hin|Hin];
      [exact (prep_no_verify _ _ Hb Hin) | exact (prep_no_verify _ _ Hp Hin)]. }
  run_tail a b w1.
  all: rewrite ?app_assoc.
  all: unfold events; simpl.
  all: split; [intros Hc p Hin | intros p Hin].
  all: repeat match goal with
         | H : In _ (_ ++ _)%list |- _ => apply in_app_or in H as [H|H]
         | H : In _ (_ :: _) |- _ => destruct H as [H|H]
         | H : In _ [] |- _ => destruct H
         | H : _ = _ |- _ => discriminate H
         end.
  all: try solve [exfalso; match goal with
         | H : In (EDown _ _) ?l, H' : forallb is_prep ?l = true |- _ => exact (prep_no_down _ _ _ H' H)
         | H : In (ECurl 10 _) ?l, H' : forallb is_prep ?l = true |- _ => exact (prep_no_verify _ _ H' H)
         end].
  all: try solve [exists ((backup_events a ++ pre) ++ [EReload (w_project w1); ESleep 30])%list, [EDown a true];
         rewrite <- !app_assoc; split; [reflexivity | simpl; auto]].
Qed.

(** C5 (code bug, same defect as C2): [rollback] issues the reload before
    stopping the failed stack, and stops it without [--volumes], but the
    reload does not re-point routing: rolling back from green to blue with
    nginx configured for green leaves routing on green. *)
Theorem rollback_reloads_without_repointing :
  let w := mkWorld nets_blue [] [] (mkRouter GREEN_STACK GREEN_STACK) GREEN_STACK true true in
  events (rollback GREEN_STACK BLUE_STACK w) = [EReload GREEN_STACK; EDown GREEN_STACK false] /\
  live (w_router (final_world (rollback GREEN_STACK BLUE_STACK w))) = GREEN_STACK.
Proof. split; reflexivity. Qed.

(** C6 (code bug): the backup step always dumps the blue stack's
    database container: with green active, [deploy] dumps
    [facial-recognition-blue_postgres_1] and never green's. *)
Theorem backup_dumps_blue_database_when_green_active :
  get_active_stack nets_green = GREEN_STACK /\
  In (EPgDump "facial-recognition-blue_postgres_1") (events (deploy w_green_active)) /\
  ~ In (EPgDump "facial-recognition-green_postgres_1") (events (deploy w_green_active)).
Proof. vm_compute. intuition discriminate. Qed.

(** C7: the backup step returns normally whatever [pg_dump] does (its
    status is discarded by [|| true]), and every [deploy] run, for every
    outcome of the dump, goes on to start the inactive stack. *)
Theorem backup_failure_does_not_block (w : world) :
  create_backup w = (Ok tt, w, [EPgDump (BLUE_STACK ++ "_postgres_1")%string]) /\
  In (EUp (get_inactive_stack (w_networks w))) (events (deploy w)).
Proof.
  split; [reflexivity|].
  destruct (deploy_run w) as (pre & b & w1 & Hp & Hu & Hr & Hk & Hj & ->).
  destruct (after_provision _ _ b w1) as [[r w2] t2].
  unfold events; simpl. apply in_or_app; right. apply in_or_app; left. exact Hu.
Qed.

(** C8: with no stack network present (bootstrap), the inactive stack
    is the fixed default BLUE_STACK (the slot the spec calls B: the one a
    bootstrap deploy provisions), and a [deploy] that ends successfully
    issues no [docker-compose down] at all: nothing is cleaned up. *)
Theorem bootstrap_deploy_targets_blue (w : world) :
  get_active_stack (w_networks w) = "" ->
  get_inactive_stack (w_networks w) = BLUE_STACK /\
  (outcome (deploy w) = Ok tt -> forall p v, ~ In (EDown p v) (events (deploy w))).
Proof.
  intros Ha. split.
  - unfold get_inactive_stack. rewrite Ha. reflexivity.
  - destruct (deploy_run w) as (pre & b & w1 & Hp & Hu & Hr & Hk & Hj & ->).
    rewrite Ha. unfold backup_events. simpl.
    run_tail "" b w1.
    all: unfold outcome, events; simpl; intros Hok p v Hin; try discriminate Hok.
    all: repeat match goal with
         | H : In _ (_ ++ _) |- _ => apply in_app_or in H as [H|H]
         | H : In _ (_ :: _) |- _ => destruct H as [H|H]
         | H : In _ [] |- _ => destruct H
         | H : _ = _ |- _ => discriminate H
         end.
    all: exact (prep_no_down _ _ _ Hp Hin).
Qed.

(** Witness for C8. *)
Lemma bootstrap_deploy_targets_blue_witness :
  get_active_stack (w_networks (w_bootstrap true)) = "" /\
  get_inactive_stack (w_networks (w_bootstrap true)) = BLUE_STACK.
Proof.
  split; [reflexivity | exact (proj1 (bootstrap_deploy_targets_blue (w_bootstrap true) eq_refl))].
Defined.

(** In bootstrap state, when the verification probe fails, [deploy]
    exits with status 1 and issues nothing after the failed probe (no
    rollback, no [down]): the trace ends with the cutover reload, the
    stabilisation sleep and the failed probe; the blue stack was started
    and is not stopped, and routing is left as the cutover reload set it,
    on nginx's configured upstream. *)
Theorem bootstrap_failed_verification_no_rollback (w : world) :
  get_active_stack (w_networks w) = "" ->
  In (ECurl 10 false) (events (deploy w)) ->
  outcome (deploy w) = Exit 1 /\
  (exists pre, events (deploy w) = pre ++ [EReload BLUE_STACK; ESleep 30; ECurl 10 false] /\
     forallb is_prep pre = true /\ In (EUp BLUE_STACK) pre) /\
  w_router (final_world (deploy w)) =
    mkRouter (upstream (w_router w)) (upstream (w_router w)).
Proof.
  intros Ha.
  assert (Hi : get_inactive_stack (w_networks w) = BLUE_STACK).
  { unfold get_inactive_stack. rewrite Ha. reflexivity. }
  destruct (deploy_run w) as (pre & b & w1 & Hp & Hu & Hr & Hk & Hj & ->).
  rewrite Ha, Hi in *. unfold backup_events. simpl.
  run_tail "" b w1.
  all: unfold outcome, events, final_world; simpl; intros Hin.
  all: repeat match goal with
       | H : In _ (_ ++ _) |- _ => apply in_app_or in H as [H|H]
       | H : In _ (_ :: _) |- _ => destruct H as [H|H]
       | H : In _ [] |- _ => destruct H
       | H : _ = _ |- _ => discriminate H
       end.
  all: try solve [exfalso; exact (prep_no_verify _ _ Hp Hin)].
  all: rewrite Hj; split; [reflexivity | split; [exists pre; repeat split; auto | rewrite Hr; reflexivity]].
Qed.

(** Witness: bootstrap_failed_verification_no_rollback at a concrete input. *)
Lemma bootstrap_failed_verification_no_rollback_witness :
  get_active_stack (w_networks (w_bootstrap false)) = "" /\
  In (ECurl 10 false) (events (deploy (w_bootstrap false))) /\
  outcome (deploy (w_bootstrap false)) = Exit 1.
Proof.
  assert (Hin : In (ECurl 10 false) (events (deploy (w_bootstrap false))))
    by (vm_compute; intuition).
  split; [reflexivity | split; [exact Hin |]].
  exact (proj1 (bootstrap_failed_verification_no_rollback (w_bootstrap false) eq_refl Hin)).
Defined.

(** C9 (code bug, through the C2 defect): in bootstrap state with a
    failing verification probe, [deploy] exits 1 without rollback and
    leaves blue running, but blue is not routed-to: the cutover reload
    only reloads nginx's configuration, so with nginx configured for green
    the live upstream stays green. *)
Theorem bootstrap_failed_verification_not_routed_to_new_stack :
  get_active_stack (w_networks w_bootstrap_green) = "" /\
  outcome (deploy w_bootstrap_green) = Exit 1 /\
  events (deploy w_bootstrap_green) =
    [EPull BLUE_STACK; EUp BLUE_STACK; EPs BLUE_STACK; EMigrate BLUE_STACK;
     ECurl 30 true; EReload BLUE_STACK; ESleep 30; ECurl 10 false] /\
  live (w_router (final_world (deploy w_bootstrap_green))) = GREEN_STACK /\
  live (w_router (final_world (deploy w_bootstrap_green))) <> BLUE_STACK.
Proof.
  vm_compute. repeat split; try reflexivity. discriminate.
Qed.

(** C10: the active stack is decided from the names of the Docker
    networks only: blue whenever a line of [docker network ls] matches
    BLUE_STACK (whether or not green's network exists), green only when
    blue's is absent and green's present, and the empty string only when
    neither matches. *)
Theorem get_active_stack_by_network_names (networks : list string) :
  (grep_q BLUE_STACK networks = true -> get_active_stack networks = BLUE_STACK) /\
  (get_active_stack networks = GREEN_STACK <->
     grep_q BLUE_STACK networks = false /\ grep_q GREEN_STACK networks = true) /\
  (get_active_stack networks = "" <->
     grep_q BLUE_STACK networks = false /\ grep_q GREEN_STACK networks = false).
Proof.
  unfold get_active_stack.
  destruct (grep_q BLUE_STACK networks), (grep_q GREEN_STACK networks);
    repeat split; intros; try discriminate; try reflexivity;
    try (destruct H; discriminate);
    try (unfold BLUE_STACK, GREEN_STACK, PROJECT_NAME in *; simpl in *; discriminate).
Qed.

(** ** Further properties of the script *)

Lemma check_files_spec h files w :
  check_files h files w =
    (if forallb (fun f => existsb (String.eqb f) (existing_paths h)) files
     then Ok tt else Exit 1, w, []).
Proof.
  induction files as [|f rest IH]; simpl; [reflexivity|].
  destruct (existsb (String.eqb f) (existing_paths h)); simpl; [exact IH | reflexivity].
Qed.

(** check_prerequisites succeeds, without any command of effect, exactly
    when docker is found, docker-compose or the compose plugin is found,
    and the three required paths exist; otherwise the script exits 1.
    A host with only the compose plugin passes, although every later
    command calls [docker-compose]. *)
Theorem check_prerequisites_spec h w :
  check_prerequisites h w = (if prerequisites_met h then Ok tt else Exit 1, w, []).
Proof.
  unfold check_prerequisites, prerequisites_met.
  destruct (has_docker h); [|reflexivity].
  destruct (has_docker_compose h), (has_compose_plugin h); cbn [negb andb orb];
    try reflexivity; apply check_files_spec.
Qed.

(** [deploy] and [rollback] on a host that fails the prerequisites exit 1
    before issuing any command. *)
Theorem main_without_prerequisites h args w :
  prerequisites_met h = false ->
  command_of args = "deploy" \/ command_of args = "rollback" ->
  main h args w = (Exit 1, w, []).
Proof.
  intros Hp Hc. unfold main.
  destruct Hc as [Hc|Hc]; rewrite Hc; simpl; unfold bind;
    rewrite check_prerequisites_spec, Hp; reflexivity.
Qed.

(** An argument other than the four commands prints the usage and exits 1
    without issuing any command. *)
Theorem main_unknown_command h args w :
  ~ In (command_of args) ["deploy"; "status"; "rollback"; "cleanup"] ->
  main h args w = (Exit 1, w, []).
Proof.
  intros Hn. unfold main.
  destruct (String.eqb_spec (command_of args) "deploy"); [rewrite e in Hn; simpl in Hn; tauto|].
  destruct (String.eqb_spec (command_of args) "status"); [rewrite e in Hn; simpl in Hn; tauto|].
  destruct (String.eqb_spec (command_of args) "rollback"); [rewrite e in Hn; simpl in Hn; tauto|].
  destruct (String.eqb_spec (command_of args) "cleanup"); [rewrite e in Hn; simpl in Hn; tauto|].
  reflexivity.
Qed.

(** [status] lists both stacks and the networks: it issues no command but
    the two [docker-compose ps], leaves COMPOSE_PROJECT_NAME on green, and
    exits 1 when no network line contains the project name. *)
Theorem main_status_read_only h args w :
  command_of args = "status" ->
  main h args w =
    (if grep_q PROJECT_NAME (w_networks w) then Ok tt else Exit 1,
     set_ps (set_project w GREEN_STACK) (skipn 2 (w_ps w)),
     [EPs BLUE_STACK; EPs GREEN_STACK]).
Proof.
  intros Hc. unfold main. rewrite Hc. simpl.
  unfold status, bind, export_project, compose_ps, network_ls, ret, exit.
  destruct w as [n ps c r p d k]; simpl.
  destruct ps as [|o1 [|o2 ps]]; simpl;
    destruct (grep_q PROJECT_NAME n); reflexivity.
Qed.

(** [cleanup] stops both stacks with their volumes, in the order blue then
    green, and succeeds whatever [docker-compose down] returns. *)
Theorem main_cleanup h args w :
  command_of args = "cleanup" ->
  main h args w =
    (Ok tt, set_project w GREEN_STACK, [EDown BLUE_STACK true; EDown GREEN_STACK true]).
Proof. intros Hc. unfold main. rewrite Hc. reflexivity. Qed.

(** The [rollback] command with no stack network exits 1 and issues
    nothing. *)
Theorem rollback_cmd_no_active w :
  get_active_stack (w_networks w) = "" ->
  rollback_cmd w = (Exit 1, w, []).
Proof. intros H. unfold rollback_cmd, bind, network_ls. rewrite H. reflexivity. Qed.

(** The [rollback] command with an active stack reloads nginx and then
    stops the active stack keeping its volumes; the live upstream becomes
    the configured one, whichever stack that is. *)
Theorem rollback_cmd_active w :
  get_active_stack (w_networks w) <> "" ->
  w_reload_ok w = true ->
  outcome (rollback_cmd w) = Ok tt /\
  events (rollback_cmd w) =
    [EReload (w_project w); EDown (get_active_stack (w_networks w)) false] /\
  live (w_router (final_world (rollback_cmd w))) = upstream (w_router w).
Proof.
  intros Ha Hr. unfold rollback_cmd, bind, network_ls.
  destruct (String.eqb_spec (get_active_stack (w_networks w)) "") as [E|_]; [contradiction|].
  unfold rollback, switch_traffic, nginx_reload, bind, export_project, compose_down.
  rewrite Hr. repeat split; reflexivity.
Qed.

Lemma not_in_forallb (f : event -> bool) l e :
  forallb f l = true -> f e = false -> ~ In e l.
Proof.
  intros H He Hin. rewrite forallb_forall in H. rewrite (H _ Hin) in He. discriminate.
Qed.

Lemma health_loop_waits fuel : forall attempt w,
  exists b w' evs, health_loop fuel attempt w = (Ok b, w', evs) /\
    forallb is_wait evs = true /\ w_router w' = w_router w /\
    w_reload_ok w' = w_reload_ok w /\ w_project w' = w_project w.
Proof.
  induction fuel as [|fuel IH]; intros attempt w; simpl.
  - close.
  - destruct (Nat.leb attempt max_attempts); [|close].
    unfold bind, compose_ps.
    destruct (w_ps w) as [|out rest].
    + simpl. destruct (Nat.eqb attempt max_attempts).
      * cbn. close.
      * cbn. destruct (IH (S attempt) w) as (b & w' & evs & -> & ? & ? & ? & ?).
        close.
    + destruct (poll_passes out); [cbn; close|].
      destruct (Nat.eqb attempt max_attempts).
      * cbn. close.
      * cbn. destruct (IH (S attempt) (set_ps w rest)) as (b & w' & evs & -> & ? & ? & ? & ?).
        close.
Qed.

Lemma deploy_to_stack_probe s w :
  exists b w' evs, deploy_to_stack s w = (Ok b, w', evs) /\
    forallb is_provision evs = true /\ In (EUp s) evs /\
    w_router w' = w_router w /\ w_reload_ok w' = w_reload_ok w /\ w_project w' = s /\
    (b = true <-> In (ECurl 30 true) evs) /\ (In (ECurl 30 false) evs -> b = false).
Proof.
  unfold deploy_to_stack.
  cbv [bind export_project compose_pull compose_up].
  destruct (health_loop_waits max_attempts 1 (set_project w s))
    as (b & w1 & evs & -> & Hp & Hr & Hk & Hj).
  assert (Hw : forall e, In e evs -> is_wait e = true) by (apply forallb_forall; exact Hp).
  assert (Hc : forall t v, ~ In (ECurl t v) evs)
    by (intros t v Hin; specialize (Hw _ Hin); discriminate).
  assert (Hpv : forallb is_provision evs = true).
  { apply forallb_forall. intros e Hin. specialize (Hw _ Hin).
    destruct e as [| | | |[|[|[|[|[|[|[|[|[|[|[|]]]]]]]]]]]| | | | |]; simpl in *; congruence. }
  destruct b; cbn; [unfold curl; destruct (w_curl w1) as [|[|] rest]; cbn|].
  all: do 3 eexists; (split; [reflexivity|]).
  all: repeat split; try congruence.
  all: try solve [simpl; rewrite forallb_app, Hpv; reflexivity].
  all: try solve [simpl; auto].
  all: try solve [intros _; simpl; rewrite in_app_iff; simpl; intuition].
  all: try (intros Hin; try reflexivity; exfalso).
  all: repeat match goal with
       | H : In _ (_ ++ _) |- _ => apply in_app_or in H as [H|H]
       | H : In _ (_ :: _) |- _ => destruct H as [H|H]
       | H : In _ [] |- _ => destruct H
       | H : _ = _ |- _ => discriminate H
       | H : In (ECurl _ _) _ |- _ => destruct (Hc _ _ H)
       end.
  all: try solve [simpl; rewrite in_app_iff; simpl; auto].
Qed.

Lemma deploy_run_probe w :
  let a := get_active_stack (w_networks w) in
  let i := get_inactive_stack (w_networks w) in
  exists pre b w1,
    forallb is_provision pre = true /\ In (EUp i) pre /\ w_router w1 = w_router w /\
    w_reload_ok w1 = w_reload_ok w /\ w_project w1 = i /\
    (b = true <-> In (ECurl 30 true) pre) /\ (In (ECurl 30 false) pre -> b = false) /\
    deploy w = (let '(r, w2, t2) := after_provision a i b w1 in
                (r, w2, (backup_events a ++ pre ++ t2)%list)).
Proof.
  intros a i.
  unfold deploy.
  erewrite bind_ok by reflexivity. cbv beta.
  erewrite bind_ok by reflexivity. cbv beta. fold a i.
  destruct (deploy_to_stack_probe i w) as (b & w1 & evs & Heq & Hp & Hu & Hr & Hk & Hj & Hb & Hf).
  exists evs, b, w1. repeat split; auto; try apply Hb; auto.
  erewrite bind_ok by apply backup_step.
  erewrite bind_ok by exact Heq. cbv beta.
  fold (after_provision a i b).
  destruct (after_provision a i b w1) as [[r w2] t2].
  rewrite app_nil_l. reflexivity.
Qed.

Ltac split_in :=
  repeat match goal with
  | H : In _ (_ ++ _) |- _ => apply in_app_or in H as [H|H]
  | H : In _ (_ :: _) |- _ => destruct H as [H|H]
  | H : In _ [] |- _ => destruct H
  | H : _ = _ |- _ => discriminate H
  end.

Lemma backup_events_no (e : event) a :
  In e (backup_events a) -> e = EPgDump (BLUE_STACK ++ "_postgres_1")%string.
Proof.
  unfold backup_events. destruct (negb (a =? "")); simpl; intuition.
Qed.

Ltac case_active w :=
  let Ea := fresh "Ea" in
  destruct (String.eqb_spec (get_active_stack (w_networks w)) "") as [Ea|Ea];
  [ rewrite Ea
  | unfold after_provision; rewrite (proj2 (String.eqb_neq _ _) Ea); cbn [negb] ].

(** A [deploy] run that succeeds passed both the health probe
    ([curl --max-time 30]) and the verification probe
    ([curl --max-time 10]); with an active stack its last command stops
    that stack with its volumes. *)
Theorem deploy_success_requires_both_probes (w : world) :
  outcome (deploy w) = Ok tt ->
  In (ECurl 30 true) (events (deploy w)) /\
  In (ECurl 10 true) (events (deploy w)) /\
  (get_active_stack (w_networks w) <> "" ->
   exists pre, events (deploy w) = pre ++ [EDown (get_active_stack (w_networks w)) true]).
Proof.
  destruct (deploy_run_probe w) as (pre & b & w1 & Hp & Hu & Hr & Hk & Hj & Hb & Hf & ->).
  case_active w.
  all: run_tail (get_active_stack (w_networks w)) b w1.
  all: unfold outcome, events; simpl; intros Hok; try discriminate Hok.
  all: assert (H30 : In (ECurl 30 true) pre) by (apply Hb; reflexivity).
  all: repeat split; try (rewrite !in_app_iff; simpl; tauto).
  all: intros Ha; try congruence.
  all: exists ((backup_events (get_active_stack (w_networks w)) ++ pre) ++
               [EReload (w_project w1); ESleep 30; ECurl 10 true]);
       rewrite <- !app_assoc; reflexivity.
Qed.

(** When [nginx -s reload] fails, [deploy] exits 1 with routing unchanged,
    without a verification probe and without stopping any stack. *)
Theorem deploy_cutover_failure_stops (w : world) :
  w_reload_ok w = false ->
  outcome (deploy w) = Exit 1 /\
  w_router (final_world (deploy w)) = w_router w /\
  (forall v, ~ In (ECurl 10 v) (events (deploy w))) /\
  (forall p v, ~ In (EDown p v) (events (deploy w))).
Proof.
  intros Hrl.
  destruct (deploy_run_probe w) as (pre & b & w1 & Hp & Hu & Hr & Hk & Hj & Hb & Hf & ->).
  rewrite Hrl in Hk.
  unfold after_provision, switch_traffic, nginx_reload, bind, exit.
  destruct b; simpl; [rewrite Hk; simpl|].
  all: unfold outcome, final_world, events; simpl.
  all: repeat split; auto; intros; intros Hin; split_in.
  all: try (apply backup_events_no in Hin; discriminate).
  all: eapply not_in_forallb; [exact Hp| |exact Hin]; reflexivity.
Qed.

(** With an active stack, a failed verification probe makes [deploy]
    end with the sequence reload, sleep 30, probe, reload, stop of the new
    stack keeping its volumes, and exit 1; no stack is stopped before. *)
Theorem deploy_verification_failure_rolls_back (w : world) :
  get_active_stack (w_networks w) <> "" ->
  In (ECurl 10 false) (events (deploy w)) ->
  let i := get_inactive_stack (w_networks w) in
  outcome (deploy w) = Exit 1 /\
  (exists pre, events (deploy w) =
     pre ++ [EReload i; ESleep 30; ECurl 10 false; EReload i; EDown i false] /\
     (forall p v, ~ In (EDown p v) pre)).
Proof.
  intros Ha.
  destruct (deploy_run_probe w) as (pre & b & w1 & Hp & Hu & Hr & Hk & Hj & Hb & Hf & ->).
  intros Hin i.
  revert Hin.
  case_active w; [contradiction|].
  run_tail (get_active_stack (w_networks w)) b w1.
  all: unfold outcome, events; simpl; intros Hin; split_in.
  all: try (apply backup_events_no in Hin; discriminate).
  all: try solve [exfalso; eapply not_in_forallb; [exact Hp| |exact Hin]; reflexivity].
  all: split; [reflexivity|].
  all: exists (backup_events (get_active_stack (w_networks w)) ++ pre); rewrite Hj.
  all: split; [rewrite <- !app_assoc; reflexivity|].
  all: intros p v Hd; apply in_app_or in Hd as [Hd|Hd];
       [apply backup_events_no in Hd; discriminate
       | eapply not_in_forallb; [exact Hp| |exact Hd]; reflexivity].
Qed.

(** A failed health probe of the new stack makes [deploy] exit 1 with
    routing unchanged, no reload and no stack stopped. *)
Theorem deploy_health_check_failure_aborts (w : world) :
  In (ECurl 30 false) (events (deploy w)) ->
  outcome (deploy w) = Exit 1 /\
  w_router (final_world (deploy w)) = w_router w /\
  (forall p, ~ In (EReload p) (events (deploy w))) /\
  (forall p v, ~ In (EDown p v) (events (deploy w))).
Proof.
  destruct (deploy_run_probe w) as (pre & b & w1 & Hp & Hu & Hr & Hk & Hj & Hb & Hf & ->).
  intros Hin.
  assert (Hpre : In (ECurl 30 false) pre).
  { revert Hin. run_tail (get_active_stack (w_networks w)) b w1.
    all: unfold events; simpl; intros Hin; split_in; auto.
    all: apply backup_events_no in Hin; discriminate. }
  rewrite (Hf Hpre). unfold after_provision, exit. simpl.
  unfold outcome, final_world, events; simpl.
  repeat split; auto; intros; intros Hx; split_in.
  all: try (apply backup_events_no in Hx; discriminate).
  all: eapply not_in_forallb; [exact Hp| |exact Hx]; reflexivity.
Qed.

Lemma after_provision_no_dump a i b w1 c :
  ~ In (EPgDump c) (events (after_provision a i b w1)).
Proof.
  run_tail a b w1.
  all: unfold events; simpl; intros Hx; split_in.
  all: repeat (destruct Hx as [Hx|Hx]; [discriminate|]); exact Hx.
Qed.

(** [deploy] runs [pg_dump] exactly when a stack is active. *)
Theorem deploy_backs_up_only_with_active_stack (w : world) :
  (exists c, In (EPgDump c) (events (deploy w))) <-> get_active_stack (w_networks w) <> "".
Proof.
  destruct (deploy_run_probe w) as (pre & b & w1 & Hp & Hu & Hr & Hk & Hj & Hb & Hf & ->).
  pose proof (after_provision_no_dump (get_active_stack (w_networks w))
                (get_inactive_stack (w_networks w)) b w1) as Ht.
  destruct (after_provision _ _ b w1) as [[r w2] t2] eqn:E.
  unfold events in *; simpl in *.
  unfold backup_events.
  destruct (String.eqb_spec (get_active_stack (w_networks w)) "") as [Ea|Ea]; simpl.
  - split; [|intros Hn; contradiction]. intros [c Hx]. exfalso. apply in_app_or in Hx as [Hx|Hx].
    + eapply not_in_forallb; [exact Hp| |exact Hx]; reflexivity.
    + exact (Ht c Hx).
  - split; [auto|]. intros _. eexists. left. reflexivity.
Qed.

(** The inactive stack is blue or green and never the active one. *)
Theorem get_inactive_stack_other (nets : list string) :
  (get_inactive_stack nets = BLUE_STACK \/ get_inactive_stack nets = GREEN_STACK) /\
  get_inactive_stack nets <> get_active_stack nets.
Proof.
  unfold get_inactive_stack, get_active_stack.
  destruct (grep_q BLUE_STACK nets); [|destruct (grep_q GREEN_STACK nets)];
    vm_compute; split; (left; reflexivity) || (right; reflexivity) || discriminate.
Qed.

Lemma poll_count_app l1 l2 : poll_count (l1 ++ l2) = poll_count l1 + poll_count l2.
Proof. unfold poll_count. rewrite filter_app, length_app. reflexivity. Qed.

Lemma slept_app l1 l2 : slept (l1 ++ l2) = slept l1 + slept l2.
Proof.
  induction l1 as [|e l1 IH]; [reflexivity|].
  destruct e; simpl; rewrite ?IH; lia.
Qed.

Lemma health_loop_bound fuel : forall attempt w,
  1 <= attempt ->
  poll_count (events (health_loop fuel attempt w)) <= S max_attempts - attempt /\
  slept (events (health_loop fuel attempt w)) <= 10 * (max_attempts - attempt).
Proof.
  induction fuel as [|fuel IH]; intros attempt w H1; cbn -[max_attempts Nat.sub Nat.mul].
  { unfold poll_count; cbn -[max_attempts Nat.sub Nat.mul]; lia. }
  destruct (Nat.leb attempt max_attempts) eqn:Hle.
  2: { unfold poll_count; cbn -[max_attempts Nat.sub Nat.mul]; lia. }
  apply Nat.leb_le in Hle.
  assert (Hs : forall v, poll_count (events (health_loop fuel (S attempt) v)) <= max_attempts - attempt /\
                         slept (events (health_loop fuel (S attempt) v)) <= 10 * (max_attempts - S attempt))
    by (intros v; apply IH; lia).
  unfold bind, compose_ps.
  destruct (w_ps w) as [|out rest]; cbn -[max_attempts Nat.sub Nat.mul health_loop];
    [|destruct (poll_passes out); cbn -[max_attempts Nat.sub Nat.mul health_loop];
      [unfold poll_count; cbn -[max_attempts Nat.sub Nat.mul]; lia|]];
    (destruct (Nat.eqb_spec attempt max_attempts) as [Ha|Ha];
     cbn -[max_attempts Nat.sub Nat.mul health_loop];
     [unfold poll_count; cbn -[max_attempts Nat.sub Nat.mul]; lia|]);
    match goal with |- context [health_loop fuel (S attempt) ?v] =>
      destruct (Hs v) as [Hp Hq]; destruct (health_loop fuel (S attempt) v) as [[r w'] t] end;
    unfold events, poll_count in *; cbn -[max_attempts Nat.sub Nat.mul] in *; lia.
Qed.

Lemma deploy_to_stack_bound s w :
  poll_count (events (deploy_to_stack s w)) <= max_attempts /\
  slept (events (deploy_to_stack s w)) <= 10 * (max_attempts - 1).
Proof.
  unfold deploy_to_stack.
  cbv [bind export_project compose_pull compose_up].
  pose proof (health_loop_bound max_attempts 1 (set_project w s) (le_n 1)) as [Hp Hs].
  destruct (health_loop max_attempts 1 (set_project w s)) as [[[b|c] w1] t].
  - destruct b; cbn -[max_attempts Nat.sub Nat.mul];
      [unfold curl; destruct (w_curl w1) as [|? ?]; cbn -[max_attempts Nat.sub Nat.mul]|].
    all: unfold events, poll_count in *; cbn -[max_attempts Nat.sub Nat.mul] in *;
         rewrite ?filter_app, ?length_app, ?slept_app; cbn -[max_attempts Nat.sub Nat.mul] in *; lia.
  - unfold events, poll_count in *; cbn -[max_attempts Nat.sub Nat.mul] in *; lia.
Qed.

Lemma deploy_events w :
  let a := get_active_stack (w_networks w) in
  let i := get_inactive_stack (w_networks w) in
  exists b w1,
    deploy w = (let '(r, w2, t2) := after_provision a i b w1 in
                (r, w2, (backup_events a ++ events (deploy_to_stack i w) ++ t2)%list)).
Proof.
  intros a i.
  unfold deploy.
  erewrite bind_ok by reflexivity. cbv beta.
  erewrite bind_ok by reflexivity. cbv beta. fold a i.
  destruct (deploy_to_stack_probe i w) as (b & w1 & evs & Heq & _).
  exists b, w1.
  erewrite bind_ok by apply backup_step.
  erewrite bind_ok by exact Heq. cbv beta.
  fold (after_provision a i b).
  rewrite Heq. unfold events. simpl.
  destruct (after_provision a i b w1) as [[r w2] t2].
  rewrite ?app_nil_l. reflexivity.
Qed.

Lemma after_provision_bound a i b w1 :
  poll_count (events (after_provision a i b w1)) = 0 /\
  slept (events (after_provision a i b w1)) <= 30.
Proof.
  run_tail a b w1.
  all: unfold events, poll_count; simpl; lia.
Qed.

(** A [deploy] run polls [docker-compose ps] at most 60 times and sleeps
    at most 620 seconds in all. *)
Theorem deploy_bounded_waiting (w : world) :
  poll_count (events (deploy w)) <= max_attempts /\
  slept (events (deploy w)) <= 10 * (max_attempts - 1) + 30.
Proof.
  destruct (deploy_events w) as (b & w1 & ->).
  pose proof (deploy_to_stack_bound (get_inactive_stack (w_networks w)) w) as [Hp Hs].
  pose proof (after_provision_bound (get_active_stack (w_networks w))
                (get_inactive_stack (w_networks w)) b w1) as [Ap As].
  destruct (after_provision _ _ b w1) as [[r w2] t2].
  unfold events in *; simpl in *.
  rewrite !poll_count_app, !slept_app.
  unfold backup_events; destruct (negb _); unfold poll_count in *; simpl in *; lia.
Qed.

(** Witness: main_without_prerequisites at a concrete input. *)
Lemma main_without_prerequisites_witness :
  prerequisites_met host_no_docker = false /\
  main host_no_docker ["deploy"] w_timeout = (Exit 1, w_timeout, []).
Proof.
  split; [reflexivity|].
  apply main_without_prerequisites; [reflexivity | left; reflexivity].
Defined.

(** Witness: main_unknown_command at a concrete input. *)
Lemma main_unknown_command_witness :
  main host_plugin_only ["restart"] w_timeout = (Exit 1, w_timeout, []).
Proof.
  apply main_unknown_command.
  vm_compute. intros H. repeat destruct H as [H|H]; try discriminate H; exact H.
Defined.

(** Witness: main_status_read_only at a concrete input. *)
Lemma main_status_read_only_witness :
  outcome (main host_no_docker ["status"] w_timeout) = Ok tt.
Proof.
  rewrite (main_status_read_only host_no_docker ["status"] w_timeout) by reflexivity.
  vm_compute. reflexivity.
Defined.

(** Witness: main_cleanup at a concrete input. *)
Lemma main_cleanup_witness :
  events (main host_no_docker ["cleanup"] w_timeout) =
    [EDown BLUE_STACK true; EDown GREEN_STACK true].
Proof.
  rewrite (main_cleanup host_no_docker ["cleanup"] w_timeout) by reflexivity.
  reflexivity.
Defined.

(** Witness: rollback_cmd_no_active at a concrete input. *)
Lemma rollback_cmd_no_active_witness :
  rollback_cmd (w_bootstrap true) = (Exit 1, w_bootstrap true, []).
Proof. apply rollback_cmd_no_active. vm_compute. reflexivity. Defined.

(** Witness: rollback_cmd_active at a concrete input. *)
Lemma rollback_cmd_active_witness :
  outcome (rollback_cmd w_unhealthy) = Ok tt.
Proof.
  apply (rollback_cmd_active w_unhealthy);
    [vm_compute; intros H; discriminate H | reflexivity].
Defined.

(** Witness: deploy_success_requires_both_probes at a concrete input. *)
Lemma deploy_success_requires_both_probes_witness :
  outcome (deploy (w_deploy true true true)) = Ok tt /\
  In (ECurl 10 true) (events (deploy (w_deploy true true true))).
Proof.
  assert (H : outcome (deploy (w_deploy true true true)) = Ok tt) by (vm_compute; reflexivity).
  split; [exact H | exact (proj1 (proj2 (deploy_success_requires_both_probes _ H)))].
Defined.

(** Witness: deploy_cutover_failure_stops at a concrete input. *)
Lemma deploy_cutover_failure_stops_witness :
  w_reload_ok (w_deploy true true false) = false /\
  outcome (deploy (w_deploy true true false)) = Exit 1.
Proof.
  split; [reflexivity|].
  exact (proj1 (deploy_cutover_failure_stops (w_deploy true true false) eq_refl)).
Defined.

(** Witness: deploy_verification_failure_rolls_back at a concrete input. *)
Lemma deploy_verification_failure_rolls_back_witness :
  In (ECurl 10 false) (events (deploy (w_deploy true false true))) /\
  outcome (deploy (w_deploy true false true)) = Exit 1.
Proof.
  assert (Ha : get_active_stack (w_networks (w_deploy true false true)) <> "")
    by (vm_compute; intros H; discriminate H).
  assert (Hin : In (ECurl 10 false) (events (deploy (w_deploy true false true))))
    by (vm_compute; repeat (first [left; reflexivity | right])).
  split; [exact Hin | exact (proj1 (deploy_verification_failure_rolls_back _ Ha Hin))].
Defined.

(** Witness: deploy_health_check_failure_aborts at a concrete input. *)
Lemma deploy_health_check_failure_aborts_witness :
  In (ECurl 30 false) (events (deploy (w_deploy false true true))) /\
  outcome (deploy (w_deploy false true true)) = Exit 1.
Proof.
  assert (Hin : In (ECurl 30 false) (events (deploy (w_deploy false true true))))
    by (vm_compute; repeat (first [left; reflexivity | right])).
  split; [exact Hin | exact (proj1 (deploy_health_check_failure_aborts _ Hin))].
Defined.
